(** * node-setup: the authentication layer

    A shallow embedding of [modules/auth] (password hashing, token issue,
    the [protect] middleware) and of [handlers/user] ([createNewUser],
    [signin]), followed by the properties of the authentication contract.

    The handlers are effectful: they read the request, write the response,
    call [bcryptjs], [jsonwebtoken] and the Prisma client, and may throw.
    They are embedded in a state-and-exception monad over one record that
    holds everything a handler can observe or change.  The three packages
    are interfaces (type classes); their documented contracts are stated as
    laws, and a small reference instance shows the laws can be met. *)

From Stdlib Require Import String Ascii List ZArith Bool Arith Lia.
From Stdlib Require Import DecimalString DecimalNat DecimalZ.
Import ListNotations.
Open Scope string_scope.

(* ================================================================== *)
(** * JavaScript values used by the code *)

Module Js.

(** [s.split(sep)] for a one-character separator: every occurrence of
    [sep] ends a segment, so the result always has one segment more than
    there are separators ([""] splits into [[""]]). *)
Fixpoint split (sep : ascii) (s : string) : list string :=
  match s with
  | EmptyString => [EmptyString]
  | String c rest =>
      if Ascii.eqb c sep then EmptyString :: split sep rest
      else match split sep rest with
           | [] => [String c EmptyString]
           | seg :: segs => String c seg :: segs
           end
  end.

(** Whether the character [c] occurs in [s] ([s.includes(c)]). *)
Fixpoint occurs (c : ascii) (s : string) : bool :=
  match s with
  | EmptyString => false
  | String d rest => Ascii.eqb d c || occurs c rest
  end.

(** A value of type [string | undefined] seen through a truthiness test:
    [undefined] and the empty string are falsy, so [!x] holds exactly
    when [truthy x] is [None]. *)
Definition truthy (x : option string) : option string :=
  match x with
  | Some s => if (s =? "")%string then None else Some s
  | None => None
  end.

(** Values that occur in the objects the code builds and receives. *)
Inductive Value : Type :=
| Str (s : string)
| Num (n : Z).

(** An object literal, its properties in order. *)
Definition Object := list (string * Value).

(** Property lookup [o[k]]. *)
Fixpoint get (k : string) (o : Object) : option Value :=
  match o with
  | [] => None
  | (k', v) :: o' => if (k' =? k)%string then Some v else get k o'
  end.

Definition keys (o : Object) : list string := map fst o.

(** What can be thrown: [Error] and the subclasses the code meets. *)
Inductive Thrown : Type :=
| Error (message : string)
| TypeError (message : string)
| JsonWebTokenError (message : string)
| PrismaClientKnownRequestError (code : string)
| BcryptError (message : string).

(** How an evaluation ends. *)
Inductive Completion (A : Type) : Type :=
| Normal (a : A)
| Throw (e : Thrown).
Arguments Normal {A} a.
Arguments Throw {A} e.

End Js.
Import Js.

(* ================================================================== *)
(** * Data model *)

(** A row of the "User" table (migration: [_id], [username], [password],
    [createdAt], [updatedAt]; [username] carries a unique index). *)
Record User : Type := mkUser {
  id : string;
  username : string;
  password : string;
  createdAt : Z;
  updatedAt : Z
}.

(** The JSON body both handlers accept: [{username, password}]. *)
Record Body : Type := mkBody {
  body_username : string;
  body_password : string
}.

(** The part of an Express request the code touches. *)
Record Request : Type := mkRequest {
  authorization : option string;   (* req.headers.authorization *)
  body : Body;                     (* req.body *)
  user : option Object             (* req.user, set by [protect] *)
}.

(** The response: its status code (200 until [res.status] changes it) and
    the JSON document sent, if any. *)
Record Response : Type := mkResponse {
  statusCode : nat;
  sent : option Object
}.

(** What the outside world can observe of a handler besides the response. *)
Inductive Event : Type :=
| NextCalled                          (* next() *)
| ConsoleError (e : Thrown)            (* console.error(e) *)
| JwtSignCalled (payload : Object)    (* jwt.sign(payload, _) *)
| JwtVerifyCalled (token : string).   (* jwt.verify(token, _) *)

(** Everything a handler reads or writes. *)
Record State : Type := mkState {
  JWT_SECRET : option string;   (* process.env.JWT_SECRET *)
  now : Z;                      (* the clock, in seconds *)
  salts_drawn : nat;            (* draws made from the salt generator *)
  ids_drawn : nat;              (* draws made from the id generator *)
  users : list User;            (* the "User" table *)
  req : Request;
  res : Response;
  trace : list Event
}.

Definition with_req (r : Request) (st : State) : State :=
  mkState (JWT_SECRET st) (now st) (salts_drawn st) (ids_drawn st)
          (users st) r (res st) (trace st).

Definition with_res (r : Response) (st : State) : State :=
  mkState (JWT_SECRET st) (now st) (salts_drawn st) (ids_drawn st)
          (users st) (req st) r (trace st).

Definition with_event (e : Event) (st : State) : State :=
  mkState (JWT_SECRET st) (now st) (salts_drawn st) (ids_drawn st)
          (users st) (req st) (res st) (trace st ++ [e]).

Definition with_salt_drawn (st : State) : State :=
  mkState (JWT_SECRET st) (now st) (S (salts_drawn st)) (ids_drawn st)
          (users st) (req st) (res st) (trace st).

Definition with_id_drawn (st : State) : State :=
  mkState (JWT_SECRET st) (now st) (salts_drawn st) (S (ids_drawn st))
          (users st) (req st) (res st) (trace st).

Definition with_users (us : list User) (st : State) : State :=
  mkState (JWT_SECRET st) (now st) (salts_drawn st) (ids_drawn st)
          us (req st) (res st) (trace st).

(* ================================================================== *)
(** * The handler monad: state and exceptions *)

Definition M (A : Type) : Type := State -> Completion A * State.

Definition ret {A} (a : A) : M A := fun st => (Normal a, st).

Definition bind {A B} (m : M A) (k : A -> M B) : M B :=
  fun st =>
    match m st with
    | (Normal a, st') => k a st'
    | (Throw e, st') => (Throw e, st')
    end.

Definition throw {A} (e : Thrown) : M A := fun st => (Throw e, st).

(** [try { body } catch (error) { handler }]: what [body] did to the state
    before it threw stays done. *)
Definition try_catch {A} (body : M A) (handler : Thrown -> M A) : M A :=
  fun st =>
    match body st with
    | (Normal a, st') => (Normal a, st')
    | (Throw e, st') => handler e st'
    end.

Definition gets {A} (f : State -> A) : M A := fun st => (Normal (f st), st).
Definition modify (f : State -> State) : M unit := fun st => (Normal tt, f st).

(** A synchronous call into a package that returns or throws. *)
Definition lift {A} (c : Completion A) : M A := fun st => (c, st).

Declare Scope handler_scope.
Delimit Scope handler_scope with handler.
Notation "x <- m ;; k" := (bind m (fun x => k))
  (at level 61, m at next level, right associativity) : handler_scope.
Notation "m ;; k" := (bind m (fun _ => k))
  (at level 61, right associativity) : handler_scope.
Open Scope handler_scope.

(** Reading a property of [o] when [o] may be [null]. *)
Definition deref {A} (o : option A) (property : string) : M A :=
  match o with
  | Some a => ret a
  | None =>
      throw (TypeError ("Cannot read properties of null (reading '"
                          ++ property ++ "')"))
  end.

(** ** Express *)

(** [res.status(code).json(doc)]. *)
Definition res_status_json (code : nat) (doc : Object) : M unit :=
  modify (with_res (mkResponse code (Some doc))).

(** [res.json(doc)]: the status code is left as it is. *)
Definition res_json (doc : Object) : M unit :=
  modify (fun st => with_res (mkResponse (statusCode (res st)) (Some doc)) st).

(** [next()]: Express runs the rest of the chain and handles what it throws
    itself, so the call returns to the middleware. *)
Definition next : M unit := modify (with_event NextCalled).

Definition console_error (e : Thrown) : M unit :=
  modify (with_event (ConsoleError e)).

(** [{ message: m }] *)
Definition message (m : string) : Object := [("message", Str m)].

(* ================================================================== *)
(** * The packages the code calls *)

(** [jsonwebtoken]: [sign(payload, secretOrPrivateKey)] and
    [verify(token, secretOrPublicKey)].  Both read the clock ([iat] is
    stamped on issue, [exp] and [nbf] are checked on verify), both throw. *)
Class Jsonwebtoken : Type := {
  jwt_sign : Object -> option string -> Z -> Completion string;
  jwt_verify : string -> option string -> Z -> Completion Object
}.

(** [bcryptjs]: [hash(s, rounds)] draws a random salt and hashes with it;
    [compare(s, hash)] resolves to a boolean or rejects.  The random
    generator is the sequence [bcrypt_random_salt 0, 1, ...] of its draws. *)
Class Bcryptjs : Type := {
  bcrypt_random_salt : nat -> string;
  bcrypt_hash_with_salt : string -> nat -> string -> string;
  bcrypt_compare : string -> string -> Completion bool
}.

(** The Prisma client generates the primary key of a new row. *)
Class PrismaClient : Type := {
  prisma_new_id : nat -> string
}.

Section Program.

Context {JWT : Jsonwebtoken} {BCRYPT : Bcryptjs} {PRISMA : PrismaClient}.

(** ** Package calls as handler steps *)

(** [jwt.sign(payload, process.env.JWT_SECRET)] *)
Definition jwt_sign_call (payload : Object) : M string :=
  fun st =>
    (jwt_sign payload (JWT_SECRET st) (now st),
     with_event (JwtSignCalled payload) st).

(** [jwt.verify(token, process.env.JWT_SECRET)] *)
Definition jwt_verify_call (token : string) : M Object :=
  fun st =>
    (jwt_verify token (JWT_SECRET st) (now st),
     with_event (JwtVerifyCalled token) st).

(** [bcryptjs.hash(s, rounds)] *)
Definition bcryptjs_hash (s : string) (rounds : nat) : M string :=
  fun st =>
    (Normal (bcrypt_hash_with_salt s rounds
               (bcrypt_random_salt (salts_drawn st))),
     with_salt_drawn st).

(** [bcryptjs.compare(s, hash)] *)
Definition bcryptjs_compare (s hash : string) : M bool :=
  lift (bcrypt_compare s hash).

(** Modelled from the spec: the persistence collaborator (the [db] module
    and the Prisma client behind it) is not part of the sources; section 6
    gives its contract, [create({username, password}) -> Account], failing
    on a duplicate handle, and the migration gives the row and its keys. *)
Definition prisma_user_create (name hashed : string) : M User :=
  fun st =>
    let new_id := prisma_new_id (ids_drawn st) in
    let st1 := with_id_drawn st in
    if existsb (fun u => (username u =? name)%string
                         || (id u =? new_id)%string) (users st)
    then (Throw (PrismaClientKnownRequestError "P2002"), st1)
    else
      let row := mkUser new_id name hashed (now st) (now st) in
      (Normal row, with_users (users st ++ [row]) st1).

(** Modelled from the spec: [findByUsername(username) -> Account | none]
    of the same collaborator. *)
Definition prisma_user_findUnique (name : string) : M (option User) :=
  gets (fun st => find (fun u => (username u =? name)%string) (users st)).

(** ** modules/auth *)

Definition comparePasswords (password hash : string) : M bool :=
  bcryptjs_compare password hash.

Definition hashPassword (password : string) : M string :=
  bcryptjs_hash password 10.

(** The object literal [{ id: user.id, username: user.username }]. *)
Definition token_payload (user : User) : Object :=
  [("id", Str (id user)); ("username", Str (username user))].

Definition createJWT (user : User) : M string :=
  token <- jwt_sign_call (token_payload user) ;;
  ret token.

(** The [try] block of [protect] with its [catch]. *)
Definition verify_and_continue (token : string) : M unit :=
  try_catch
    (user <- jwt_verify_call token ;;
     modify (fun st =>
               with_req (mkRequest (authorization (req st)) (body (req st))
                                   (Some user)) st) ;;
     next)
    (fun error =>
       console_error error ;;
       res_status_json 401 (message "Invalid token")).

(** [bearer.split(" ")[1]]: [undefined] when there is no second segment. *)
Definition token_segment (bearer : string) : option string :=
  nth_error (split " " bearer) 1.

Definition protect : M unit :=
  bearer <- gets (fun st => authorization (req st)) ;;
  match truthy bearer with
  | None =>
      (* check if header is present *)
      res_status_json 401 (message "Unauthorized")
  | Some bearer =>
      (* check if token is present *)
      match truthy (token_segment bearer) with
      | None => res_status_json 401 (message "No token provided")
      | Some token =>
          (* check if token is valid *)
          verify_and_continue token
      end
  end.

(** ** handlers/user *)

Definition createNewUser : M unit :=
  name <- gets (fun st => body_username (body (req st))) ;;
  plain <- gets (fun st => body_password (body (req st))) ;;
  hashed <- hashPassword plain ;;
  user <- prisma_user_create name hashed ;;
  token <- createJWT user ;;
  res_json [("token", Str token)].

Definition signin : M unit :=
  name <- gets (fun st => body_username (body (req st))) ;;
  plain <- gets (fun st => body_password (body (req st))) ;;
  found <- prisma_user_findUnique name ;;
  (* user.password, with no test of user against null *)
  user <- deref found "password" ;;
  isValid <- comparePasswords plain (password user) ;;
  if negb isValid then
    res_status_json 401 (message "Invalid Credentials")
  else
    token <- createJWT user ;;
    res_json [("token", Str token)].

End Program.

(** The events a computation adds to the trace when run from [st]. *)
Definition emitted {A} (m : M A) (st : State) : list Event :=
  skipn (length (trace st)) (trace (snd (m st))).

(** The response Express hands to a handler: status 200, nothing sent. *)
Definition fresh_response : Response := mkResponse 200 None.

(** The keys of the "User" table: no two rows share a [username] (the
    unique index of the migration) or an [id] (its primary key). *)
Definition unique_users (rows : list User) : Prop :=
  NoDup (map username rows) /\ NoDup (map id rows).


(* ================================================================== *)
(** * Contracts of the packages *)

(** The registered claim names, which [jsonwebtoken] validates or sets
    itself; the payloads of this program use none of them. *)
Definition registered_claims : list string :=
  ["iss"; "sub"; "aud"; "exp"; "nbf"; "iat"; "jti"].

Definition plain_payload (o : Object) : bool :=
  forallb (fun k => match get k o with None => true | Some _ => false end)
          registered_claims.

(** [cut] is [token] with a non-empty tail removed. *)
Definition truncated (cut token : string) : Prop :=
  exists tail, tail <> "" /\ token = cut ++ tail.

Definition has_space (s : string) : bool := occurs " " s.

(** ASCII text without NUL characters. *)
Fixpoint ascii_text (s : string) : bool :=
  match s with
  | EmptyString => true
  | String c rest =>
      Nat.ltb 0 (nat_of_ascii c) && Nat.ltb (nat_of_ascii c) 128
      && ascii_text rest
  end.

(** A secret that HMAC uses as it is: at most 64 bytes (one block, so the
    key is not hashed first) of ASCII text without NUL (so the zero padding
    of the key cannot make it equal to another such key). *)
Definition text_secret (key : string) : bool :=
  Nat.leb (String.length key) 64 && ascii_text key.

(** [jsonwebtoken], HS256 with a shared secret, as its documentation
    promises it and with the signature taken as unforgeable. *)
Record JwtLaws (J : Jsonwebtoken) : Prop := {
  (* a non-empty key signs any payload without registered claims *)
  sign_returns : forall payload key t,
    plain_payload payload = true -> key <> "" ->
    exists token, jwt_sign payload (Some key) t = Normal token;
  (* a token is a non-empty string of base64url characters and dots *)
  token_shape : forall payload key t token,
    jwt_sign payload key t = Normal token ->
    token <> "" /\ has_space token = false;
  (* verifying under the signing key returns the signed properties *)
  verify_signed : forall payload key t t' token,
    plain_payload payload = true ->
    jwt_sign payload (Some key) t = Normal token ->
    exists decoded,
      jwt_verify token (Some key) t' = Normal decoded /\
      forall k v, get k payload = Some v -> get k decoded = Some v;
  (* "jwt must be provided" *)
  verify_empty : forall key t,
    exists e, jwt_verify "" key t = Throw e;
  (* "invalid signature": HMAC pads a key with zero bytes up to its block
     and hashes a longer one, so only secrets that are [text_secret] are
     promised to be told apart *)
  verify_other_key : forall payload key key' t t' token,
    text_secret key = true -> text_secret key' = true ->
    jwt_sign payload (Some key) t = Normal token ->
    key' <> key ->
    exists e, jwt_verify token (Some key') t' = Throw e;
  (* "jwt malformed", "jwt signature is required", "invalid signature" *)
  verify_truncated : forall payload key t t' token cut,
    jwt_sign payload (Some key) t = Normal token ->
    truncated cut token ->
    exists e, jwt_verify cut (Some key) t' = Throw e
}.

(** [bcryptjs]: a hash verifies against its plaintext, carries its salt,
    and is never the plaintext itself. *)
Record BcryptLaws (B : Bcryptjs) : Prop := {
  compare_hashed : forall s rounds salt,
    bcrypt_compare s (bcrypt_hash_with_salt s rounds salt) = Normal true;
  hash_carries_salt : forall s rounds salt salt',
    bcrypt_hash_with_salt s rounds salt = bcrypt_hash_with_salt s rounds salt' ->
    salt = salt';
  hash_not_plaintext : forall s rounds salt,
    bcrypt_hash_with_salt s rounds salt <> s
}.

(** Fresh salt each call: no two draws of the generator agree. *)
Definition fresh_salts (B : Bcryptjs) : Prop :=
  forall i j, bcrypt_random_salt i = bcrypt_random_salt j -> i = j.

(* ================================================================== *)
(** * An ideal instance of the packages

    Transparent encodings stand in for the cryptography: a token is the
    hexadecimal transcript of its payload followed by a tag that names the
    key, a hash is the transcript of salt and plaintext.  Nothing here is
    secret; the instance only has to obey the contracts above, which shows
    that they can be met and lets every property below be run on a
    concrete request. *)

Module Ideal.

Definition hex_digits : list ascii := list_ascii_of_string "0123456789abcdef".

Definition hex_digit (n : nat) : ascii := nth n hex_digits "0"%char.

Fixpoint index_of (c : ascii) (l : list ascii) : option nat :=
  match l with
  | [] => None
  | d :: l' => if Ascii.eqb d c then Some 0 else option_map S (index_of c l')
  end.

Definition hex_value (c : ascii) : option nat := index_of c hex_digits.

(** Two digits per character. *)
Fixpoint hex (s : string) : string :=
  match s with
  | EmptyString => EmptyString
  | String c rest =>
      String (hex_digit (nat_of_ascii c / 16))
        (String (hex_digit (nat_of_ascii c mod 16)) (hex rest))
  end.

Fixpoint unhex (s : string) : option string :=
  match s with
  | EmptyString => Some EmptyString
  | String h (String l rest) =>
      match hex_value h, hex_value l, unhex rest with
      | Some a, Some b, Some r => Some (String (ascii_of_nat (16 * a + b)) r)
      | _, _, _ => None
      end
  | String _ EmptyString => None
  end.

Definition decimal (z : Z) : string := NilZero.string_of_int (Z.to_int z).

Definition undecimal (s : string) : option Z :=
  option_map Z.of_int (NilZero.int_of_string s).

(** A value: a tag letter and the transcript of its text. *)
Definition enc_value (v : Value) : string :=
  match v with
  | Str s => String "s" (hex s)
  | Num n => String "n" (hex (decimal n))
  end.

Definition dec_value (s : string) : option Value :=
  match s with
  | String tag text =>
      if Ascii.eqb tag "s" then option_map Str (unhex text)
      else if Ascii.eqb tag "n" then
        match unhex text with
        | Some d => option_map Num (undecimal d)
        | None => None
        end
      else None
  | EmptyString => None
  end.

(** A property: [key=value]. *)
Definition enc_property (kv : string * Value) : string :=
  hex (fst kv) ++ String "=" (enc_value (snd kv)).

Definition dec_property (s : string) : option (string * Value) :=
  match split "=" s with
  | [k; v] =>
      match unhex k, dec_value v with
      | Some k', Some v' => Some (k', v')
      | _, _ => None
      end
  | _ => None
  end.

(** An object: its properties, each closed by a semicolon. *)
Fixpoint enc_object (o : Object) : string :=
  match o with
  | [] => EmptyString
  | kv :: o' => enc_property kv ++ String ";" (enc_object o')
  end.

Fixpoint dec_properties (segments : list string) : option Object :=
  match segments with
  | [] => None
  | [last] => if (last =? "")%string then Some [] else None
  | seg :: rest =>
      match dec_property seg, dec_properties rest with
      | Some kv, Some o => Some (kv :: o)
      | _, _ => None
      end
  end.

Definition dec_object (s : string) : option Object :=
  dec_properties (split ";" s).

(** A character that no encoded object contains: neither a digit, nor a
    tag letter, nor one of the two separators. *)
Definition outside (c : ascii) : Prop :=
  hex_value c = None /\ c <> "s"%char /\ c <> "n"%char
  /\ c <> "="%char /\ c <> ";"%char.

(** The tag of a token body under a key. *)
Definition tag (key body : string) : string :=
  hex (key ++ String "/" body).

Definition sign (payload : Object) (key : option string) (t : Z)
  : Completion string :=
  match truthy key with
  | None => Throw (Error "secretOrPrivateKey must have a value")
  | Some k =>
      let body := enc_object (payload ++ [("iat", Num t)])%list in
      Normal (body ++ String "." (tag k body))
  end.

Definition verify (token : string) (key : option string) (t : Z)
  : Completion Object :=
  match truthy key with
  | None => Throw (JsonWebTokenError "secret or public key must be provided")
  | Some k =>
      match split "." token with
      | [body; sig] =>
          if (sig =? tag k body)%string then
            match dec_object body with
            | Some o => Normal o
            | None => Throw (JsonWebTokenError "invalid token")
            end
          else Throw (JsonWebTokenError "invalid signature")
      | _ => Throw (JsonWebTokenError "jwt malformed")
      end
  end.

Definition jsonwebtoken : Jsonwebtoken :=
  {| jwt_sign := sign; jwt_verify := verify |}.

(** The [n]-th salt is [n] in decimal. *)
Definition random_salt (n : nat) : string :=
  NilEmpty.string_of_uint (Nat.to_uint n).

Definition hash_with_salt (s : string) (rounds : nat) (salt : string) : string :=
  String "$" (hex salt ++ String "$" (hex (salt ++ s))).

Definition compare (s hash : string) : Completion bool :=
  match split "$" hash with
  | [_; salt; digest] =>
      match unhex salt with
      | Some salt' => Normal (digest =? hex (salt' ++ s))%string
      | None => Throw (Error "Invalid salt version")
      end
  | _ => Normal false
  end.

Definition bcryptjs : Bcryptjs :=
  {| bcrypt_random_salt := random_salt;
     bcrypt_hash_with_salt := hash_with_salt;
     bcrypt_compare := compare |}.

Definition prisma : PrismaClient :=
  {| prisma_new_id := fun n => String "u" (random_salt n) |}.

(** A server with the secret configured and an empty table, about to
    handle the request [r]. *)
Definition server (secret : option string) (r : Request) : State :=
  mkState secret 1700000000 0 0 [] r fresh_response [].

Definition request (header : option string) (name plain : string) : Request :=
  mkRequest header (mkBody name plain) None.

(** The next request reaches a server in state [st]. *)
Definition incoming (r : Request) (st : State) : State :=
  with_req r (with_res fresh_response st).

(** ** A worked session *)

(** johnDoe signs up on an empty server whose secret is ["shh"]. *)
Definition signup : State :=
  server (Some "shh") (request None "johnDoe" "mysecretpassword").

Definition after_signup : State :=
  Eval vm_compute in
    snd (@createNewUser jsonwebtoken bcryptjs prisma signup).

(** The row the sign-up stored. *)
Definition john : User :=
  Eval vm_compute in
    mkUser "u0" "johnDoe" (hash_with_salt "mysecretpassword" 10 (random_salt 0))
           1700000000 1700000000.

(** The same account with another password hash and other timestamps. *)
Definition john_rehashed : User :=
  Eval vm_compute in
    mkUser "u0" "johnDoe" (hash_with_salt "correct horse" 10 (random_salt 7))
           1600000000 1650000000.

Definition text (c : Completion string) : string :=
  match c with Normal s => s | Throw _ => "" end.

(** john's token under the server's secret, the same payload signed with
    another secret, and john's token cut after 40 characters. *)
Definition john_token : string :=
  Eval vm_compute in text (sign (token_payload john) (Some "shh") 1700000000).




(** Requests to a protected route. *)
Definition bearing (header : option string) : State :=
  incoming (request header "" "") after_signup.

End Ideal.


(* ================================================================== *)
(** * Strings and [split] *)

Lemma append_nil_r (s : string) : s ++ "" = s.
Proof. induction s as [|c s IH]; simpl; [reflexivity | now rewrite IH]. Qed.

Lemma append_assoc (a b c : string) : (a ++ b) ++ c = a ++ (b ++ c).
Proof. induction a as [|x a IH]; simpl; [reflexivity | now rewrite IH]. Qed.

Lemma length_append (a b : string) :
  String.length (a ++ b) = String.length a + String.length b.
Proof. induction a as [|x a IH]; simpl; [reflexivity | now rewrite IH]. Qed.

Lemma append_inv_tail (a b c : string) : a ++ c = b ++ c -> a = b.
Proof.
  revert b; induction a as [|x a IH]; intros [|y b] H; simpl in H.
  - reflexivity.
  - apply (f_equal String.length) in H; simpl in H.
    rewrite length_append in H; lia.
  - apply (f_equal String.length) in H; simpl in H.
    rewrite length_append in H; lia.
  - injection H as -> H. now rewrite (IH _ H).
Qed.

Lemma append_cons_not_empty (a b : string) (c : ascii) : a ++ String c b <> "".
Proof. destruct a; discriminate. Qed.

Lemma occurs_append (c : ascii) (a b : string) :
  occurs c (a ++ b) = occurs c a || occurs c b.
Proof.
  induction a as [|x a IH]; simpl; [reflexivity|].
  now rewrite IH, orb_assoc.
Qed.

Lemma split_not_nil (sep : ascii) (s : string) : split sep s <> [].
Proof.
  induction s as [|c s IH]; simpl; [discriminate|].
  destruct (Ascii.eqb c sep); [discriminate|].
  destruct (split sep s); [contradiction | discriminate].
Qed.

(** A string without the separator is its own single segment. *)
Lemma split_without_sep (sep : ascii) (s : string) :
  occurs sep s = false -> split sep s = [s].
Proof.
  induction s as [|c s IH]; simpl; [reflexivity|].
  intros H. apply orb_false_iff in H as [Hc Hs].
  rewrite Hc, (IH Hs). reflexivity.
Qed.

(** The first separator ends the first segment. *)
Lemma split_at_sep (sep : ascii) (a b : string) :
  occurs sep a = false ->
  split sep (a ++ String sep b) = a :: split sep b.
Proof.
  induction a as [|c a IH]; simpl.
  - intros _. now rewrite Ascii.eqb_refl.
  - intros H. apply orb_false_iff in H as [Hc Ha].
    rewrite Hc, (IH Ha). reflexivity.
Qed.

(** Where a prefix of [a ++ sep :: b] can end: inside [a], or past the
    separator and inside [b]. *)
Lemma prefix_of_joined (cut tail a b : string) (sep : ascii) :
  cut ++ tail = a ++ String sep b ->
  (exists r, a = cut ++ r) \/
  (exists b', cut = a ++ String sep b' /\ b = b' ++ tail).
Proof.
  revert a; induction cut as [|x cut IH]; intros a H.
  - left. now exists a.
  - destruct a as [|y a]; simpl in H.
    + injection H as -> H. right. exists cut. now split.
    + injection H as -> H. destruct (IH _ H) as [[r ->] | [b' [-> ->]]].
      * left. now exists r.
      * right. now exists b'.
Qed.

(** ** The token segment of an [Authorization] header *)

Lemma token_segment_scheme_only (scheme : string) :
  has_space scheme = false -> token_segment scheme = None.
Proof.
  intros H. unfold token_segment. now rewrite (split_without_sep _ _ H).
Qed.

Lemma token_segment_scheme_space (scheme : string) :
  has_space scheme = false -> token_segment (scheme ++ " ") = Some "".
Proof.
  intros H. unfold token_segment. now rewrite (split_at_sep _ _ _ H).
Qed.

Lemma token_segment_scheme_token (scheme token : string) :
  has_space scheme = false -> has_space token = false ->
  token_segment (scheme ++ String " " token) = Some token.
Proof.
  intros Hs Ht. unfold token_segment.
  now rewrite (split_at_sep _ _ _ Hs), (split_without_sep _ _ Ht).
Qed.

Lemma token_segment_empty : token_segment "" = None.
Proof. reflexivity. Qed.

(** ** Traces *)

Lemma skipn_length_app {A} (l l' : list A) :
  skipn (List.length l) (l ++ l')%list = l'.
Proof. induction l as [|x l IH]; simpl; [reflexivity | exact IH]. Qed.

(* ================================================================== *)
(** * The ideal instance obeys the contracts *)

Module IdealLaws.
Import Ideal.

Lemma hex_value_digit (n : nat) : n < 16 -> hex_value (hex_digit n) = Some n.
Proof.
  intros H.
  do 16 (destruct n as [|n]; [reflexivity|]).
  lia.
Qed.

Lemma nibbles_bounded (c : ascii) :
  nat_of_ascii c / 16 < 16 /\ nat_of_ascii c mod 16 < 16.
Proof.
  pose proof (nat_ascii_bounded c) as H. split.
  - apply Nat.Div0.div_lt_upper_bound. lia.
  - apply Nat.mod_upper_bound. lia.
Qed.

Lemma unhex_hex (s : string) : unhex (hex s) = Some s.
Proof.
  induction s as [|c s IH]; [reflexivity|].
  destruct (nibbles_bounded c) as [Hh Hl].
  cbn [hex unhex]. rewrite (hex_value_digit _ Hh), (hex_value_digit _ Hl), IH.
  rewrite <- (Nat.div_mod_eq (nat_of_ascii c) 16), ascii_nat_embedding.
  reflexivity.
Qed.

Lemma hex_inj (a b : string) : hex a = hex b -> a = b.
Proof.
  intros H. apply (f_equal unhex) in H. rewrite !unhex_hex in H. congruence.
Qed.

Lemma length_hex (s : string) : String.length (hex s) = 2 * String.length s.
Proof. induction s as [|c s IH]; simpl; [reflexivity | rewrite IH; lia]. Qed.

(** Only hexadecimal digits occur in a transcript. *)
Lemma occurs_hex (c : ascii) (s : string) :
  hex_value c = None -> occurs c (hex s) = false.
Proof.
  intros Hc. induction s as [|x s IH]; [reflexivity|].
  destruct (nibbles_bounded x) as [Hh Hl].
  cbn [hex occurs]. rewrite IH, orb_false_r.
  apply orb_false_iff; split; apply Ascii.eqb_neq; intros E;
    rewrite <- E in Hc;
    [rewrite (hex_value_digit _ Hh) in Hc | rewrite (hex_value_digit _ Hl) in Hc];
    discriminate.
Qed.

Lemma undecimal_decimal (z : Z) : undecimal (decimal z) = Some z.
Proof.
  unfold undecimal, decimal.
  rewrite NilZero.isi.
  - simpl. now rewrite DecimalZ.of_to.
  - intros E. pose proof (DecimalZ.of_to z) as H. rewrite E in H.
    simpl in H. subst z. discriminate.
  - intros E. pose proof (DecimalZ.of_to z) as H. rewrite E in H.
    simpl in H. subst z. discriminate.
Qed.

Lemma dec_value_enc (v : Value) : dec_value (enc_value v) = Some v.
Proof.
  destruct v as [s|n]; cbn [enc_value dec_value].
  - rewrite Ascii.eqb_refl, unhex_hex. reflexivity.
  - replace (Ascii.eqb "n" "s") with false by reflexivity.
    rewrite Ascii.eqb_refl, unhex_hex, undecimal_decimal. reflexivity.
Qed.

Lemma occurs_enc_value (c : ascii) (v : Value) :
  hex_value c = None -> c <> "s"%char -> c <> "n"%char ->
  occurs c (enc_value v) = false.
Proof.
  intros Hc Hs Hn.
  destruct v; cbn [enc_value occurs]; rewrite (occurs_hex _ _ Hc), orb_false_r;
    apply Ascii.eqb_neq; congruence.
Qed.

Lemma occurs_enc_property (c : ascii) (kv : string * Value) :
  hex_value c = None -> c <> "s"%char -> c <> "n"%char -> c <> "="%char ->
  occurs c (enc_property kv) = false.
Proof.
  intros Hc Hs Hn He. unfold enc_property.
  rewrite occurs_append. cbn [occurs].
  rewrite (occurs_hex _ _ Hc), (occurs_enc_value _ _ Hc Hs Hn), orb_false_r.
  apply Ascii.eqb_neq; congruence.
Qed.

Lemma occurs_enc_object (c : ascii) (o : Object) :
  outside c -> occurs c (enc_object o) = false.
Proof.
  intros (Hc & Hs & Hn & He & Hsc).
  induction o as [|kv o IH]; [reflexivity|].
  cbn [enc_object]. rewrite occurs_append. cbn [occurs].
  rewrite (occurs_enc_property _ _ Hc Hs Hn He), IH, orb_false_r.
  apply Ascii.eqb_neq; congruence.
Qed.

Lemma dec_property_enc (kv : string * Value) :
  dec_property (enc_property kv) = Some kv.
Proof.
  destruct kv as [k v]. unfold dec_property, enc_property; cbn [fst snd].
  rewrite split_at_sep by (now apply occurs_hex).
  rewrite split_without_sep
    by (apply occurs_enc_value; [reflexivity | discriminate | discriminate]).
  now rewrite unhex_hex, dec_value_enc.
Qed.

Lemma dec_object_enc (o : Object) : dec_object (enc_object o) = Some o.
Proof.
  unfold dec_object. induction o as [|kv o IH]; [reflexivity|].
  cbn [enc_object].
  rewrite split_at_sep
    by (apply occurs_enc_property; [reflexivity | discriminate ..]).
  destruct (split ";" (enc_object o)) as [|seg rest] eqn:E.
  - now apply split_not_nil in E.
  - cbn [dec_properties] in *. now rewrite dec_property_enc, IH.
Qed.

Lemma get_app_some (k : string) (v : Value) (o o' : Object) :
  get k o = Some v -> get k (o ++ o')%list = Some v.
Proof.
  induction o as [|[k' v'] o IH]; simpl; [discriminate|].
  destruct (k' =? k)%string; auto.
Qed.

Lemma outside_dot : outside ".".
Proof. repeat split; discriminate. Qed.

Lemma outside_space : outside " ".
Proof. repeat split; discriminate. Qed.

Lemma truthy_key (key : string) : key <> "" -> truthy (Some key) = Some key.
Proof. intros H. simpl. now apply String.eqb_neq in H as ->. Qed.

Lemma truthy_some (x : option string) (s : string) :
  truthy x = Some s -> x = Some s /\ s <> "".
Proof.
  destruct x as [s'|]; simpl; [|discriminate].
  destruct (String.eqb_spec s' ""); [discriminate|].
  intros [= <-]. now split.
Qed.

(** What [sign] returns when it returns. *)
Lemma sign_normal payload key t token :
  sign payload key t = Normal token ->
  exists k, key = Some k /\ k <> "" /\
    token = enc_object (payload ++ [("iat", Num t)])%list
            ++ String "." (tag k (enc_object (payload ++ [("iat", Num t)])%list)).
Proof.
  unfold sign. destruct (truthy key) as [k|] eqn:E; [|discriminate].
  apply truthy_some in E as [-> Hk]. intros [= <-]. now exists k.
Qed.

Lemma split_token (body sig : string) :
  occurs "." body = false -> occurs "." sig = false ->
  split "." (body ++ String "." sig) = [body; sig].
Proof.
  intros Hb Hs. now rewrite (split_at_sep _ _ _ Hb), (split_without_sep _ _ Hs).
Qed.

Lemma occurs_tag (c : ascii) (k body : string) :
  hex_value c = None -> occurs c (tag k body) = false.
Proof. intros H. now apply occurs_hex. Qed.

Lemma tag_inj (k k' body : string) : tag k body = tag k' body -> k = k'.
Proof. intros H. apply hex_inj in H. now apply append_inv_tail in H. Qed.

Lemma jwt_laws : JwtLaws jsonwebtoken.
Proof.
  constructor; cbn [jwt_sign jwt_verify jsonwebtoken].
  - (* sign_returns *)
    intros payload key t _ Hk. unfold sign. rewrite (truthy_key _ Hk).
    eexists; reflexivity.
  - (* token_shape *)
    intros payload key t token H.
    apply sign_normal in H as (k & -> & Hk & ->). split.
    + apply append_cons_not_empty.
    + unfold has_space. rewrite occurs_append. cbn [occurs].
      rewrite (occurs_enc_object _ _ outside_space).
      now rewrite occurs_tag.
  - (* verify_signed *)
    intros payload key t t' token _ H.
    apply sign_normal in H as (k & [= <-] & Hk & ->).
    exists (payload ++ [("iat", Num t)])%list. split.
    + unfold verify. rewrite (truthy_key _ Hk).
      rewrite split_token
        by (apply (occurs_enc_object _ _ outside_dot) || now apply occurs_tag).
      now rewrite String.eqb_refl, dec_object_enc.
    + intros k' v. apply get_app_some.
  - (* verify_empty *)
    intros key t. unfold verify.
    destruct (truthy key); eexists; reflexivity.
  - (* verify_other_key *)
    intros payload key key' t t' token _ _ H Hne.
    apply sign_normal in H as (k & [= <-] & Hk & ->).
    unfold verify. destruct (truthy (Some key')) as [k'|] eqn:E;
      [|eexists; reflexivity].
    apply truthy_some in E as [[= <-] Hk'].
    rewrite split_token
      by (apply (occurs_enc_object _ _ outside_dot) || now apply occurs_tag).
    destruct (String.eqb_spec (tag key (enc_object (payload ++ [("iat", Num t)])%list))
                              (tag key' (enc_object (payload ++ [("iat", Num t)])%list)))
      as [E|_]; [|eexists; reflexivity].
    apply tag_inj in E. congruence.
  - (* verify_truncated *)
    intros payload key t t' token cut H [tail [Htail Hcut]].
    apply sign_normal in H as (k & [= <-] & Hk & ->).
    unfold verify. rewrite (truthy_key _ Hk).
    symmetry in Hcut.
    destruct (prefix_of_joined _ _ _ _ _ Hcut) as [[r Hr] | [sig [-> Hsig]]].
    + (* the cut falls inside the body: a single segment *)
      assert (Hc : occurs "." cut = false).
      { pose proof (occurs_enc_object _ (payload ++ [("iat", Num t)])%list outside_dot) as Hb.
        rewrite Hr, occurs_append in Hb. now apply orb_false_iff in Hb. }
      rewrite (split_without_sep _ _ Hc). eexists; reflexivity.
    + (* the cut falls inside the tag: the tag is too short *)
      assert (Hs : occurs "." sig = false).
      { pose proof (occurs_tag "." key (enc_object (payload ++ [("iat", Num t)])%list) eq_refl) as Hb.
        rewrite Hsig, occurs_append in Hb. now apply orb_false_iff in Hb. }
      rewrite split_token
        by (apply (occurs_enc_object _ _ outside_dot) || exact Hs).
      destruct (String.eqb_spec sig (tag key (enc_object (payload ++ [("iat", Num t)])%list)))
        as [E|_]; [|eexists; reflexivity].
      exfalso. rewrite <- E in Hsig.
      apply (f_equal String.length) in Hsig. rewrite length_append in Hsig.
      destruct tail; [congruence | simpl in Hsig; lia].
Qed.

Lemma split_hash (salt digest : string) :
  occurs "$" salt = false -> occurs "$" digest = false ->
  split "$" (String "$" (salt ++ String "$" digest)) = [""; salt; digest].
Proof.
  intros Hs Hd. change (String "$" (salt ++ String "$" digest))
    with ("" ++ String "$" (salt ++ String "$" digest)).
  rewrite split_at_sep by reflexivity.
  now rewrite (split_at_sep _ _ _ Hs), (split_without_sep _ _ Hd).
Qed.

Lemma bcrypt_laws : BcryptLaws bcryptjs.
Proof.
  constructor; cbn [bcrypt_hash_with_salt bcrypt_compare bcryptjs].
  - intros s rounds salt. unfold compare, hash_with_salt.
    rewrite split_hash by (now apply occurs_hex).
    now rewrite unhex_hex, String.eqb_refl.
  - intros s rounds salt salt' H. unfold hash_with_salt in H.
    apply (f_equal (split "$")) in H.
    rewrite !split_hash in H by (now apply occurs_hex).
    injection H as H _. now apply hex_inj.
  - intros s rounds salt H. unfold hash_with_salt in H.
    apply (f_equal String.length) in H. simpl in H.
    rewrite length_append in H. simpl in H.
    rewrite !length_hex, length_append in H. lia.
Qed.

Lemma ideal_fresh_salts : fresh_salts bcryptjs.
Proof.
  intros i j H. cbn [bcrypt_random_salt bcryptjs] in H. unfold random_salt in H.
  apply (f_equal NilEmpty.uint_of_string) in H.
  rewrite !NilEmpty.usu in H. injection H as H.
  now apply DecimalNat.Unsigned.to_uint_inj.
Qed.

End IdealLaws.

(* ================================================================== *)
(** * Properties of the middleware *)

(** Unfolds a handler down to its state transformer. *)
Ltac run :=
  unfold emitted, protect, verify_and_continue, createNewUser, signin,
    createJWT, hashPassword, comparePasswords, bcryptjs_hash,
    bcryptjs_compare, jwt_sign_call, jwt_verify_call, prisma_user_create,
    prisma_user_findUnique, deref, res_status_json, res_json, next,
    console_error, try_catch, bind, ret, throw, gets, modify, lift;
  cbn [fst snd req res trace users JWT_SECRET now salts_drawn ids_drawn
       with_req with_res with_event with_salt_drawn with_id_drawn with_users
       authorization body user body_username body_password].

Section Middleware.

Context {JWT : Jsonwebtoken}.

(** C6. A request without an [Authorization] header is answered 401
    [{message: "Unauthorized"}]; the middleware returns without calling
    [next] or [jwt.verify] (it emits no event at all) and leaves
    [req.user] alone. *)
Theorem protect_without_header (st : State) :
  authorization (req st) = None ->
  fst (protect st) = Normal tt /\
  res (snd (protect st)) = mkResponse 401 (Some (message "Unauthorized")) /\
  emitted protect st = [] /\
  user (req (snd (protect st))) = user (req st).
Proof.
  intros H. run. rewrite H. cbn.
  repeat split. apply skipn_all.
Qed.

(** An empty header value is falsy and takes the same branch. *)
Lemma protect_empty_header (st : State) :
  authorization (req st) = Some "" ->
  res (snd (protect st)) = mkResponse 401 (Some (message "Unauthorized")).
Proof. intros H. run. now rewrite H. Qed.

(** A header value whose second space-separated segment is missing or
    empty takes the "No token provided" branch. *)
Lemma protect_no_token_segment (st : State) (bearer : string) :
  authorization (req st) = Some bearer ->
  bearer <> "" ->
  token_segment bearer = None \/ token_segment bearer = Some "" ->
  fst (protect st) = Normal tt /\
  res (snd (protect st)) = mkResponse 401 (Some (message "No token provided")) /\
  emitted protect st = [] /\
  user (req (snd (protect st))) = user (req st).
Proof.
  intros H Hne Hseg. run. rewrite H. cbn [truthy].
  apply String.eqb_neq in Hne as ->.
  destruct Hseg as [-> | ->]; cbn; repeat split; apply skipn_all.
Qed.

(** C7. A request whose [Authorization] header is a scheme prefix with
    no token segment after it (the scheme alone, or the scheme and the
    separating space) is answered 401 [{message: "No token provided"}];
    the middleware returns without calling [next] or [jwt.verify] (it
    emits no event at all) and leaves [req.user] alone. *)
Theorem protect_without_token (st : State) (scheme rest : string) :
  scheme <> "" -> has_space scheme = false ->
  rest = "" \/ rest = " " ->
  authorization (req st) = Some (scheme ++ rest) ->
  fst (protect st) = Normal tt /\
  res (snd (protect st)) = mkResponse 401 (Some (message "No token provided")) /\
  emitted protect st = [] /\
  user (req (snd (protect st))) = user (req st).
Proof.
  intros Hne Hsp Hrest H.
  apply (protect_no_token_segment st (scheme ++ rest) H).
  - destruct scheme; [contradiction | discriminate].
  - destruct Hrest as [-> | ->].
    + left. rewrite append_nil_r. now apply token_segment_scheme_only.
    + right. now apply token_segment_scheme_space.
Qed.

(** Once the header carries a token, [protect] is its [try] block. *)
Lemma protect_with_token (st : State) (bearer token : string) :
  authorization (req st) = Some bearer ->
  token_segment bearer = Some token ->
  token <> "" ->
  protect st = verify_and_continue token st.
Proof.
  intros H Hseg Hne. unfold protect, bind, gets. rewrite H. cbn [truthy].
  destruct (String.eqb_spec bearer "") as [-> | _]; [discriminate|].
  rewrite Hseg. cbn [truthy]. now apply String.eqb_neq in Hne as ->.
Qed.

Lemma protect_bearer (st : State) (token : string) :
  authorization (req st) = Some ("Bearer " ++ token) ->
  token <> "" -> has_space token = false ->
  protect st = verify_and_continue token st.
Proof.
  intros H Hne Hsp. apply (protect_with_token st _ token H); [|exact Hne].
  now apply (token_segment_scheme_token "Bearer" token).
Qed.

(** The [try] block when [jwt.verify] returns. *)
Lemma verify_and_continue_normal (st : State) (token : string) (decoded : Object) :
  jwt_verify token (JWT_SECRET st) (now st) = Normal decoded ->
  fst (verify_and_continue token st) = Normal tt /\
  user (req (snd (verify_and_continue token st))) = Some decoded /\
  res (snd (verify_and_continue token st)) = res st /\
  emitted (verify_and_continue token) st = [JwtVerifyCalled token; NextCalled].
Proof.
  intros H. run. rewrite H. cbn. repeat split.
  rewrite <- app_assoc. apply skipn_length_app.
Qed.

(** The [try] block when [jwt.verify] throws. *)
Lemma verify_and_continue_throw (st : State) (token : string) (e : Thrown) :
  jwt_verify token (JWT_SECRET st) (now st) = Throw e ->
  fst (verify_and_continue token st) = Normal tt /\
  res (snd (verify_and_continue token st))
    = mkResponse 401 (Some (message "Invalid token")) /\
  emitted (verify_and_continue token) st
    = [JwtVerifyCalled token; ConsoleError e] /\
  user (req (snd (verify_and_continue token st))) = user (req st).
Proof.
  intros H. run. rewrite H. cbn. repeat split.
  rewrite <- app_assoc. apply skipn_length_app.
Qed.

(** C2. When the header carries a token: if [jwt.verify] returns a
    payload under the process secret, the middleware stores it in
    [req.user], sends nothing and calls [next]; if [jwt.verify] throws,
    the middleware logs the error, answers 401
    [{message: "Invalid token"}], does not call [next] and leaves
    [req.user] alone. *)
Theorem protect_verifies_token (st : State) (bearer token : string) :
  authorization (req st) = Some bearer ->
  token_segment bearer = Some token ->
  token <> "" ->
  (forall decoded,
      jwt_verify token (JWT_SECRET st) (now st) = Normal decoded ->
      fst (protect st) = Normal tt /\
      user (req (snd (protect st))) = Some decoded /\
      res (snd (protect st)) = res st /\
      emitted protect st = [JwtVerifyCalled token; NextCalled]) /\
  (forall e,
      jwt_verify token (JWT_SECRET st) (now st) = Throw e ->
      fst (protect st) = Normal tt /\
      res (snd (protect st)) = mkResponse 401 (Some (message "Invalid token")) /\
      emitted protect st = [JwtVerifyCalled token; ConsoleError e] /\
      user (req (snd (protect st))) = user (req st)).
Proof.
  intros H Hseg Hne.
  unfold emitted. rewrite (protect_with_token st bearer token H Hseg Hne).
  split; intros x Hx.
  - apply (verify_and_continue_normal st token x Hx).
  - apply (verify_and_continue_throw st token x Hx).
Qed.

End Middleware.

(* ================================================================== *)
(** * Properties of the tokens *)

Section Tokens.

Context {JWT : Jsonwebtoken}.
Hypothesis laws : JwtLaws JWT.

Lemma token_payload_plain (a : User) : plain_payload (token_payload a) = true.
Proof. reflexivity. Qed.

(** [createJWT] with the secret configured returns what [jwt.sign] returns
    for the two-property payload. *)
Lemma createJWT_returns (st : State) (a : User) (key : string) :
  JWT_SECRET st = Some key -> key <> "" ->
  exists token,
    jwt_sign (token_payload a) (Some key) (now st) = Normal token /\
    createJWT a st = (Normal token, with_event (JwtSignCalled (token_payload a)) st).
Proof.
  intros Hs Hk.
  destruct (sign_returns JWT laws (token_payload a) key (now st)
              (token_payload_plain a) Hk) as [token Ht].
  exists token. split; [exact Ht|]. run. now rewrite Hs, Ht.
Qed.


(** C1. With the signing secret configured, [createJWT] returns a token
    for every account, and whenever that token is verified under the same
    secret (the [jwt.verify] call of [protect]) verification returns a
    payload whose [id] and [username] are the account's; [protect] stores
    that payload in [req.user]. *)
Theorem issued_token_verifies (st : State) (a : User) (key : string) :
  JWT_SECRET st = Some key -> key <> "" ->
  exists token,
    fst (createJWT a st) = Normal token /\
    forall st', JWT_SECRET st' = Some key ->
      exists decoded,
        fst (jwt_verify_call token st') = Normal decoded /\
        get "id" decoded = Some (Str (id a)) /\
        get "username" decoded = Some (Str (username a)) /\
        user (req (snd (verify_and_continue token st'))) = Some decoded.
Proof.
  intros Hs Hk.
  destruct (createJWT_returns st a key Hs Hk) as (token & Hsign & Hrun).
  exists token. split; [now rewrite Hrun|].
  intros st' Hs'.
  destruct (verify_signed JWT laws (token_payload a) key (now st) (now st') token
              (token_payload_plain a) Hsign) as (decoded & Hv & Hget).
  exists decoded. repeat split.
  - run. now rewrite Hs'.
  - apply Hget. reflexivity.
  - apply Hget. reflexivity.
  - rewrite <- Hs' in Hv. apply (verify_and_continue_normal st' token decoded Hv).
Qed.

End Tokens.

Section TokenPayload.

Context {JWT : Jsonwebtoken}.


End TokenPayload.

(* ================================================================== *)
(** * Properties of the credential hasher *)

Section Hasher.

Context {BCRYPT : Bcryptjs}.
Hypothesis laws : BcryptLaws BCRYPT.
Hypothesis fresh : fresh_salts BCRYPT.

Lemma hashPassword_returns (st : State) (p : string) :
  hashPassword p st
  = (Normal (bcrypt_hash_with_salt p 10 (bcrypt_random_salt (salts_drawn st))),
     with_salt_drawn st).
Proof. reflexivity. Qed.

(** C8. A hash verifies against its plaintext, and two calls of
    [hashPassword] on the same plaintext, one after the other, return
    different hashes (the generator gives each call a fresh salt) that
    both verify against it. *)
Theorem hash_twice (st : State) (p : string) :
  exists h1 h2 st1 st2,
    hashPassword p st = (Normal h1, st1) /\
    hashPassword p st1 = (Normal h2, st2) /\
    h1 <> h2 /\
    (forall st', fst (comparePasswords p h1 st') = Normal true) /\
    (forall st', fst (comparePasswords p h2 st') = Normal true).
Proof.
  do 4 eexists. rewrite !hashPassword_returns.
  split; [reflexivity|]. split; [reflexivity|].
  cbn [salts_drawn with_salt_drawn]. repeat split.
  - intros E. apply (hash_carries_salt BCRYPT laws) in E.
    apply fresh in E. lia.
  - intros st'. run. apply (compare_hashed BCRYPT laws).
  - intros st'. run. apply (compare_hashed BCRYPT laws).
Qed.

End Hasher.

(* ================================================================== *)
(** * Properties of the account handlers *)

Section Handlers.

Context {JWT : Jsonwebtoken} {BCRYPT : Bcryptjs} {PRISMA : PrismaClient}.
Hypothesis jwt_laws : JwtLaws JWT.
Hypothesis bcrypt_laws : BcryptLaws BCRYPT.

(** [prisma.user.create] when it succeeds: the row it returns has the
    given name and password and is the one appended to the table. *)
Lemma prisma_user_create_normal (st st' : State) (name hashed : string) (row : User) :
  prisma_user_create name hashed st = (Normal row, st') ->
  username row = name /\ password row = hashed /\
  st' = with_users (users st ++ [row]) (with_id_drawn st).
Proof.
  unfold prisma_user_create. destruct (existsb _ _); [discriminate|].
  intros [= <- <-]. repeat split.
Qed.

(** Sign-in with a username that no row has: [findUnique] gives [null],
    reading [user.password] throws, and nothing is sent. *)
Lemma signin_unknown_username (st : State) :
  find (fun u => (username u =? body_username (body (req st)))%string)
       (users st) = None ->
  signin st
  = (Throw (TypeError "Cannot read properties of null (reading 'password')"),
     st).
Proof. intros H. run. now rewrite H. Qed.

(** C4. Sign-in with the username of a stored account: when the password
    does not verify against the stored hash the handler answers 401
    [{message: "Invalid Credentials"}] and never calls [jwt.sign]; when it
    verifies (and the secret is configured) the handler signs a token for
    that account and sends [{token}]. *)
Theorem signin_known_account (st : State) (u : User) :
  find (fun u => (username u =? body_username (body (req st)))%string)
       (users st) = Some u ->
  (bcrypt_compare (body_password (body (req st))) (password u) = Normal false ->
     fst (signin st) = Normal tt /\
     res (snd (signin st))
       = mkResponse 401 (Some (message "Invalid Credentials")) /\
     emitted signin st = []) /\
  (bcrypt_compare (body_password (body (req st))) (password u) = Normal true ->
     forall key, JWT_SECRET st = Some key -> key <> "" ->
     exists token,
       jwt_sign (token_payload u) (Some key) (now st) = Normal token /\
       fst (signin st) = Normal tt /\
       res (snd (signin st))
         = mkResponse (statusCode (res st)) (Some [("token", Str token)]) /\
       emitted signin st = [JwtSignCalled (token_payload u)]).
Proof.
  intros Hfind. split.
  - intros Hcmp. run. rewrite Hfind. cbn. rewrite Hcmp. cbn.
    repeat split. apply skipn_all.
  - intros Hcmp key Hs Hk.
    destruct (createJWT_returns jwt_laws st u key Hs Hk) as (token & Hsign & _).
    exists token. split; [exact Hsign|].
    run. rewrite Hfind. cbn. rewrite Hcmp. cbn. rewrite Hs, Hsign. cbn.
    repeat split. apply skipn_length_app.
Qed.

(** C5. Sign-up whose [prisma.user.create] succeeds (and with the secret
    configured): the row appended to the table has the submitted username
    and, as its password, the hash [hashPassword] returned, which differs
    from the submitted plaintext; the handler signs a token for that row
    and sends [{token}], the token being a non-empty string. *)
Theorem createNewUser_stores_hash (st : State) (row : User) (key : string) :
  JWT_SECRET st = Some key -> key <> "" ->
  fst (prisma_user_create
         (body_username (body (req st)))
         (bcrypt_hash_with_salt (body_password (body (req st))) 10
            (bcrypt_random_salt (salts_drawn st)))
         (snd (hashPassword (body_password (body (req st))) st)))
  = Normal row ->
  exists token,
    fst (createNewUser st) = Normal tt /\
    users (snd (createNewUser st)) = (users st ++ [row])%list /\
    username row = body_username (body (req st)) /\
    fst (hashPassword (body_password (body (req st))) st)
      = Normal (password row) /\
    password row <> body_password (body (req st)) /\
    jwt_sign (token_payload row) (Some key) (now st) = Normal token /\
    token <> "" /\
    res (snd (createNewUser st))
      = mkResponse (statusCode (res st)) (Some [("token", Str token)]).
Proof.
  intros Hs Hk Hcreate.
  rewrite hashPassword_returns in Hcreate. cbn [snd] in Hcreate.
  destruct (prisma_user_create _ _ _) as [c st2] eqn:E in Hcreate.
  cbn [fst] in Hcreate. subst c.
  destruct (prisma_user_create_normal _ _ _ _ _ E) as (Hname & Hpw & ->).
  assert (Hs2 : JWT_SECRET (with_users (users (with_salt_drawn st) ++ [row])
                              (with_id_drawn (with_salt_drawn st))) = Some key)
    by exact Hs.
  destruct (createJWT_returns jwt_laws _ row key Hs2 Hk) as (token & Hsign & Hjwt).
  exists token.
  assert (Hrun : createNewUser st
                 = (Normal tt,
                    with_res (mkResponse (statusCode (res st))
                                         (Some [("token", Str token)]))
                      (with_event (JwtSignCalled (token_payload row))
                         (with_users (users st ++ [row])
                            (with_id_drawn (with_salt_drawn st)))))).
  { unfold createNewUser, bind, gets. rewrite hashPassword_returns, E, Hjwt.
    reflexivity. }
  rewrite Hrun, hashPassword_returns. cbn [fst snd users with_res with_event with_users res].
  repeat split; try assumption.
  - congruence.
  - rewrite Hpw. apply (hash_not_plaintext BCRYPT bcrypt_laws).
  - apply (token_shape JWT jwt_laws _ _ _ _ Hsign).
Qed.

End Handlers.

(* ================================================================== *)
(** * The properties on a worked session *)

Module Session.
Import Ideal.

#[local] Existing Instance jsonwebtoken.
#[local] Existing Instance bcryptjs.
#[local] Existing Instance prisma.

Lemma protect_without_header_witness :
  authorization (req (bearing None)) = None /\
  res (snd (protect (bearing None)))
    = mkResponse 401 (Some (message "Unauthorized")) /\
  emitted protect (bearing None) = [].
Proof.
  split; [reflexivity|].
  destruct (protect_without_header (bearing None) eq_refl)
    as (_ & Hres & Hev & _).
  now split.
Defined.

Lemma protect_without_token_witness :
  has_space "Bearer" = false /\
  res (snd (protect (bearing (Some "Bearer "))))
    = mkResponse 401 (Some (message "No token provided")) /\
  emitted protect (bearing (Some "Bearer ")) = [].
Proof.
  split; [reflexivity|].
  destruct (protect_without_token (bearing (Some "Bearer ")) "Bearer" " "
              ltac:(discriminate) eq_refl (or_intror eq_refl) eq_refl)
    as (_ & Hres & Hev & _).
  now split.
Defined.

Lemma protect_verifies_token_witness :
  token_segment ("Bearer " ++ john_token) = Some john_token /\
  user (req (snd (protect (bearing (Some ("Bearer " ++ john_token))))))
    = Some [("id", Str "u0"); ("username", Str "johnDoe");
            ("iat", Num 1700000000)] /\
  emitted protect (bearing (Some ("Bearer " ++ john_token)))
    = [JwtVerifyCalled john_token; NextCalled] /\
  res (snd (protect (bearing (Some "Bearer garbage"))))
    = mkResponse 401 (Some (message "Invalid token")).
Proof.
  split; [reflexivity|].
  destruct (protect_verifies_token (bearing (Some ("Bearer " ++ john_token)))
              ("Bearer " ++ john_token) john_token eq_refl eq_refl
              ltac:(discriminate)) as [Hok _].
  destruct (Hok _ eq_refl) as (_ & Huser & _ & Hev).
  destruct (protect_verifies_token (bearing (Some "Bearer garbage"))
              "Bearer garbage" "garbage" eq_refl eq_refl
              ltac:(discriminate)) as [_ Hbad].
  destruct (Hbad _ eq_refl) as (_ & Hres & _).
  repeat split; assumption.
Defined.

Lemma issued_token_verifies_witness :
  JWT_SECRET after_signup = Some "shh" /\
  exists decoded,
    fst (jwt_verify_call (text (fst (createJWT john after_signup)))
           (bearing None)) = Normal decoded /\
    get "id" decoded = Some (Str (id john)) /\
    get "username" decoded = Some (Str (username john)).
Proof.
  split; [reflexivity|].
  destruct (issued_token_verifies IdealLaws.jwt_laws after_signup john "shh"
              eq_refl ltac:(discriminate)) as (token & Htoken & Hverify).
  rewrite Htoken. cbn [text].
  destruct (Hverify (bearing None) eq_refl) as (decoded & Hv & Hid & Hname & _).
  exists decoded. repeat split; assumption.
Defined.



Lemma hash_twice_witness :
  exists h1 h2 st1 st2,
    hashPassword "mysecretpassword" signup = (Normal h1, st1) /\
    hashPassword "mysecretpassword" st1 = (Normal h2, st2) /\
    h1 <> h2 /\
    (forall st', fst (comparePasswords "mysecretpassword" h1 st') = Normal true) /\
    (forall st', fst (comparePasswords "mysecretpassword" h2 st') = Normal true).
Proof.
  exact (hash_twice IdealLaws.bcrypt_laws IdealLaws.ideal_fresh_salts
           signup "mysecretpassword").
Defined.

Lemma signin_known_account_witness :
  users after_signup = [john] /\
  res (snd (signin (incoming (request None "johnDoe" "wrong") after_signup)))
    = mkResponse 401 (Some (message "Invalid Credentials")) /\
  emitted signin (incoming (request None "johnDoe" "wrong") after_signup) = [] /\
  res (snd (signin (incoming (request None "johnDoe" "mysecretpassword")
                      after_signup)))
    = mkResponse 200 (Some [("token", Str john_token)]).
Proof.
  split; [reflexivity|].
  destruct (signin_known_account IdealLaws.jwt_laws
              (incoming (request None "johnDoe" "wrong") after_signup) john
              eq_refl) as [Hwrong _].
  destruct (Hwrong eq_refl) as (_ & Hres & Hev).
  destruct (signin_known_account IdealLaws.jwt_laws
              (incoming (request None "johnDoe" "mysecretpassword") after_signup)
              john eq_refl) as [_ Hright].
  destruct (Hright eq_refl "shh" eq_refl ltac:(discriminate))
    as (token & Hsign & _ & Hres' & _).
  injection Hsign as <-.
  repeat split; assumption.
Defined.

Lemma createNewUser_stores_hash_witness :
  users signup = [] /\
  exists token,
    users (snd (createNewUser signup)) = [john] /\
    password john <> "mysecretpassword" /\
    token <> "" /\
    res (snd (createNewUser signup))
      = mkResponse 200 (Some [("token", Str token)]).
Proof.
  split; [reflexivity|].
  destruct (createNewUser_stores_hash IdealLaws.jwt_laws IdealLaws.bcrypt_laws
              signup john "shh" eq_refl ltac:(discriminate) eq_refl)
    as (token & _ & Husers & _ & _ & Hpw & _ & Htoken & Hres).
  exists token. repeat split; assumption.
Defined.

(** C3. johnDoe is the only account; a sign-in as ["ghost"] throws a
    [TypeError] out of the handler and sends no response, where the claim
    asks for a 401 or 404 answer. *)
Theorem signin_unknown_username_throws :
  signin (incoming (request None "ghost" "mysecretpassword") after_signup)
  = (Throw (TypeError "Cannot read properties of null (reading 'password')"),
     incoming (request None "ghost" "mysecretpassword") after_signup)
  /\ sent (res (snd (signin (incoming (request None "ghost" "mysecretpassword")
                               after_signup)))) = None.
Proof.
  rewrite (signin_unknown_username
             (incoming (request None "ghost" "mysecretpassword") after_signup)
             eq_refl).
  split; reflexivity.
Qed.

End Session.

(* ================================================================== *)
(** * More on the middleware: what the header parsing lets through *)

Section MiddlewareEdges.

Context {JWT : Jsonwebtoken}.

(** A falsy header, missing or empty, is answered "Unauthorized". *)
Lemma protect_falsy_header (st : State) :
  truthy (authorization (req st)) = None ->
  protect st
  = (Normal tt, with_res (mkResponse 401 (Some (message "Unauthorized"))) st).
Proof. intros H. unfold protect, bind, gets. now rewrite H. Qed.

Lemma emitted_with_res {A} (m : M A) (st : State) (c : Completion A) (r : Response) :
  m st = (c, with_res r st) -> emitted m st = [].
Proof. intros H. unfold emitted. rewrite H. cbn. apply skipn_all. Qed.

(** X2. An [Authorization] header that is present with an empty value is
    treated like a missing one: 401 [{message: "Unauthorized"}], no call
    of [next] or [jwt.verify], [req.user] untouched. *)
Theorem protect_empty_header_value (st : State) :
  authorization (req st) = Some "" ->
  fst (protect st) = Normal tt /\
  res (snd (protect st)) = mkResponse 401 (Some (message "Unauthorized")) /\
  emitted protect st = [] /\
  user (req (snd (protect st))) = user (req st).
Proof.
  intros H.
  assert (E : truthy (authorization (req st)) = None) by now rewrite H.
  pose proof (protect_falsy_header st E) as R.
  rewrite (emitted_with_res _ _ _ _ R), R. repeat split.
Qed.

(** X1. [protect] never throws, and it ends in exactly one of two ways:
    it answers 401 with one of its three messages, without calling [next]
    and without touching [req.user]; or it leaves the response alone,
    stores in [req.user] the payload that [jwt.verify] returned for the
    second segment of the header, and calls [next]. *)
Theorem protect_decides (st : State) :
  fst (protect st) = Normal tt /\
  ((statusCode (res (snd (protect st))) = 401 /\
    (exists m, In m ["Unauthorized"; "No token provided"; "Invalid token"] /\
               sent (res (snd (protect st))) = Some (message m)) /\
    ~ In NextCalled (emitted protect st) /\
    user (req (snd (protect st))) = user (req st))
   \/
   (res (snd (protect st)) = res st /\
    exists bearer token decoded,
      authorization (req st) = Some bearer /\
      token_segment bearer = Some token /\
      jwt_verify token (JWT_SECRET st) (now st) = Normal decoded /\
      user (req (snd (protect st))) = Some decoded /\
      emitted protect st = [JwtVerifyCalled token; NextCalled])).
Proof.
  destruct (truthy (authorization (req st))) as [bearer|] eqn:Hb.
  - apply IdealLaws.truthy_some in Hb as [Hb Hne].
    destruct (truthy (token_segment bearer)) as [token|] eqn:Ht.
    + apply IdealLaws.truthy_some in Ht as [Ht Htne].
      unfold emitted. rewrite (protect_with_token st bearer token Hb Ht Htne).
      destruct (jwt_verify token (JWT_SECRET st) (now st)) as [decoded|e] eqn:Hv.
      * destruct (verify_and_continue_normal st token decoded Hv)
          as (H1 & H2 & H3 & H4).
        split; [exact H1|]. right. split; [exact H3|].
        exists bearer, token, decoded. repeat split; assumption.
      * destruct (verify_and_continue_throw st token e Hv)
          as (H1 & H2 & H3 & H4).
        split; [exact H1|]. left. rewrite H2. unfold emitted in H3. rewrite H3.
        repeat split; [| |exact H4].
        -- exists "Invalid token". split; [simpl; tauto | reflexivity].
        -- intros [F|[F|[]]]; discriminate.
    + assert (Hseg : token_segment bearer = None \/ token_segment bearer = Some "").
      { destruct (token_segment bearer) as [t|]; [|now left].
        right. simpl in Ht. destruct (String.eqb_spec t ""); congruence. }
      destruct (protect_no_token_segment st bearer Hb Hne Hseg)
        as (H1 & H2 & H3 & H4).
      split; [exact H1|]. left. rewrite H2, H3.
      repeat split; [| |exact H4].
      * exists "No token provided". split; [simpl; tauto | reflexivity].
      * intros [].
  - pose proof (protect_falsy_header st Hb) as R.
    rewrite (emitted_with_res _ _ _ _ R), R. cbn.
    split; [reflexivity|]. left. repeat split.
    + exists "Unauthorized". split; [simpl; tauto | reflexivity].
    + intros [].
Qed.

(** X3. Only the second space-separated segment of the header counts:
    whatever the scheme word is (it is never compared with "Bearer") and
    whatever follows the token after another space, [protect] runs its
    [try] block on that segment. *)
Theorem protect_second_segment_only (st : State) (scheme token rest : string) :
  has_space scheme = false -> has_space token = false -> token <> "" ->
  rest = "" \/ (exists more, rest = String " " more) ->
  authorization (req st) = Some (scheme ++ String " " (token ++ rest)) ->
  protect st = verify_and_continue token st.
Proof.
  intros Hs Ht Hne Hrest H.
  apply (protect_with_token st _ token H); [|exact Hne].
  unfold token_segment. rewrite (split_at_sep _ _ _ Hs).
  destruct Hrest as [-> | [more ->]].
  - now rewrite append_nil_r, (split_without_sep _ _ Ht).
  - now rewrite (split_at_sep _ _ _ Ht).
Qed.

(** X4. Two spaces after the scheme make the second segment empty: the
    request is answered 401 [{message: "No token provided"}] and
    [jwt.verify] is not called, even though a token follows. *)
Theorem protect_double_space (st : State) (scheme rest : string) :
  has_space scheme = false ->
  authorization (req st) = Some (scheme ++ String " " (String " " rest)) ->
  fst (protect st) = Normal tt /\
  res (snd (protect st)) = mkResponse 401 (Some (message "No token provided")) /\
  emitted protect st = [].
Proof.
  intros Hs H.
  destruct (protect_no_token_segment st _ H) as (H1 & H2 & H3 & _).
  - destruct scheme; discriminate.
  - right. unfold token_segment. rewrite (split_at_sep _ _ _ Hs).
    cbn [split]. rewrite Ascii.eqb_refl. reflexivity.
  - repeat split; assumption.
Qed.

End MiddlewareEdges.

(* ================================================================== *)
(** * Tokens that do not verify *)

Section FailedVerification.

Context {JWT : Jsonwebtoken}.
Hypothesis laws : JwtLaws JWT.


End FailedVerification.

(* ================================================================== *)
(** * More on the tokens: from issue to the protected route *)

Section TokenFlow.

Context {JWT : Jsonwebtoken}.
Hypothesis laws : JwtLaws JWT.

(** What [createJWT] returned is what [jwt.sign] returned. *)
Lemma createJWT_normal (st : State) (a : User) (token : string) :
  fst (createJWT a st) = Normal token ->
  jwt_sign (token_payload a) (JWT_SECRET st) (now st) = Normal token.
Proof.
  run. destruct (jwt_sign _ _ _) as [t|e]; cbn; [|discriminate].
  now intros [= ->].
Qed.

(** X5. A token that [createJWT] returned for an account, presented as
    [Authorization: Bearer <token>] to a server with the same secret,
    passes [protect]: nothing is sent, [next] is called, and [req.user]
    holds a payload whose [id] and [username] are the account's. *)
Theorem issued_token_passes_protect
        (st st' : State) (a : User) (key token : string) :
  JWT_SECRET st = Some key ->
  fst (createJWT a st) = Normal token ->
  JWT_SECRET st' = Some key ->
  authorization (req st') = Some ("Bearer " ++ token) ->
  fst (protect st') = Normal tt /\
  res (snd (protect st')) = res st' /\
  emitted protect st' = [JwtVerifyCalled token; NextCalled] /\
  exists decoded,
    user (req (snd (protect st'))) = Some decoded /\
    get "id" decoded = Some (Str (id a)) /\
    get "username" decoded = Some (Str (username a)).
Proof.
  intros Hs Hjwt Hs' Hh.
  apply createJWT_normal in Hjwt. rewrite Hs in Hjwt.
  destruct (token_shape JWT laws _ _ _ _ Hjwt) as [Hne Hsp].
  destruct (verify_signed JWT laws _ key (now st) (now st') token
              (token_payload_plain a) Hjwt) as (decoded & Hv & Hget).
  rewrite <- Hs' in Hv.
  unfold emitted. rewrite (protect_bearer st' token Hh Hne Hsp).
  destruct (verify_and_continue_normal st' token decoded Hv)
    as (H1 & H2 & H3 & H4).
  repeat split; try assumption.
  exists decoded. repeat split; [exact H2 | apply Hget | apply Hget]; reflexivity.
Qed.

(** X6. A token names one account: if [createJWT] returned the same token
    for two accounts under the same secret, at whatever times, the two
    accounts have the same [id] and the same [username]. *)
Theorem token_determines_account
        (st st' : State) (a a' : User) (key token : string) :
  JWT_SECRET st = Some key -> JWT_SECRET st' = Some key ->
  fst (createJWT a st) = Normal token ->
  fst (createJWT a' st') = Normal token ->
  id a = id a' /\ username a = username a'.
Proof.
  intros Hs Hs' H H'.
  apply createJWT_normal in H, H'. rewrite Hs in H. rewrite Hs' in H'.
  destruct (verify_signed JWT laws _ key (now st) 0%Z token
              (token_payload_plain a) H) as (d & Hv & Hget).
  destruct (verify_signed JWT laws _ key (now st') 0%Z token
              (token_payload_plain a') H') as (d' & Hv' & Hget').
  rewrite Hv in Hv'. injection Hv' as <-.
  pose proof (Hget "id" _ eq_refl) as I.
  pose proof (Hget' "id" _ eq_refl) as I'.
  pose proof (Hget "username" _ eq_refl) as U.
  pose proof (Hget' "username" _ eq_refl) as U'.
  rewrite I in I'. rewrite U in U'. split; congruence.
Qed.

End TokenFlow.

(* ================================================================== *)
(** * More on the account handlers: every way they can end *)

Section HandlerOutcomes.

Context {JWT : Jsonwebtoken} {BCRYPT : Bcryptjs} {PRISMA : PrismaClient}.

(** The two ways [prisma.user.create] ends. *)
Lemma prisma_user_create_cases (st : State) (name hashed : string) :
  (prisma_user_create name hashed st
   = (Throw (PrismaClientKnownRequestError "P2002"), with_id_drawn st) /\
   exists u, In u (users st) /\
             (username u = name \/ id u = prisma_new_id (ids_drawn st)))
  \/
  (exists row,
      prisma_user_create name hashed st
      = (Normal row, with_users (users st ++ [row]) (with_id_drawn st)) /\
      row = mkUser (prisma_new_id (ids_drawn st)) name hashed (now st) (now st) /\
      forall u, In u (users st) -> username u <> name /\ id u <> id row).
Proof.
  unfold prisma_user_create.
  destruct (existsb _ (users st)) eqn:E.
  - left. split; [reflexivity|].
    apply existsb_exists in E as (u & Hin & Hu). exists u. split; [exact Hin|].
    apply orb_true_iff in Hu as [Hu|Hu]; apply String.eqb_eq in Hu; auto.
  - right. eexists. split; [reflexivity|]. split; [reflexivity|].
    intros u Hin. cbn [id].
    assert (Hu : (username u =? name)%string
                 || (id u =? prisma_new_id (ids_drawn st))%string = false).
    { destruct ((username u =? name)%string
                || (id u =? prisma_new_id (ids_drawn st))%string) eqn:F;
        [|reflexivity].
      rewrite <- E. symmetry. apply existsb_exists. now exists u. }
    apply orb_false_iff in Hu as [Hn Hi].
    now apply String.eqb_neq in Hn, Hi.
Qed.

(** [createNewUser] as one case analysis on its two calls that can throw. *)
Lemma createNewUser_run (st : State) :
  createNewUser st
  = match prisma_user_create
            (body_username (body (req st)))
            (bcrypt_hash_with_salt (body_password (body (req st))) 10
               (bcrypt_random_salt (salts_drawn st)))
            (with_salt_drawn st) with
    | (Normal row, st2) =>
        match jwt_sign (token_payload row) (JWT_SECRET st2) (now st2) with
        | Normal token =>
            (Normal tt,
             with_res (mkResponse (statusCode (res st2))
                                  (Some [("token", Str token)]))
                      (with_event (JwtSignCalled (token_payload row)) st2))
        | Throw e => (Throw e, with_event (JwtSignCalled (token_payload row)) st2)
        end
    | (Throw e, st2) => (Throw e, st2)
    end.
Proof.
  unfold createNewUser, hashPassword, bcryptjs_hash, createJWT,
    jwt_sign_call, res_json.
  cbv [bind gets modify ret].
  destruct (prisma_user_create _ _ _) as [[row|e] st2]; [|reflexivity].
  destruct (jwt_sign _ _ _); reflexivity.
Qed.

Lemma find_app_none {A} (f : A -> bool) (l l' : list A) :
  (forall x, In x l -> f x = false) -> find f (l ++ l')%list = find f l'.
Proof.
  induction l as [|x l IH]; intros H; simpl; [reflexivity|].
  rewrite (H x (or_introl eq_refl)). apply IH. intros y Hy. apply H. now right.
Qed.

(** X7. [signin] never changes the table, and it sends a response exactly
    when it returns: either 401 [{message: "Invalid Credentials"}] or
    [{token}]; whenever it throws (unknown username, [compare] or
    [jwt.sign] throwing) the response is left as it was. *)
Theorem signin_outcomes (st : State) :
  users (snd (signin st)) = users st /\
  match fst (signin st) with
  | Normal _ =>
      res (snd (signin st))
        = mkResponse 401 (Some (message "Invalid Credentials")) \/
      exists token,
        res (snd (signin st))
          = mkResponse (statusCode (res st)) (Some [("token", Str token)])
  | Throw _ => res (snd (signin st)) = res st
  end.
Proof.
  run. destruct (find _ (users st)) as [u|]; cbn; [|split; reflexivity].
  destruct (bcrypt_compare _ _) as [[|]|e]; cbn.
  - destruct (jwt_sign _ _ _) as [token|e]; cbn; [|split; reflexivity].
    split; [reflexivity|]. right. now exists token.
  - split; [reflexivity|]. now left.
  - split; reflexivity.
Qed.

(** X8. [createNewUser] sends [{token}] exactly when it returns, and has
    then appended exactly one row, carrying the submitted username;
    whenever it throws, the response is left as it was and the table has
    grown by at most one row. *)
Theorem createNewUser_outcomes (st : State) :
  match fst (createNewUser st) with
  | Normal _ =>
      exists row token,
        users (snd (createNewUser st)) = (users st ++ [row])%list /\
        username row = body_username (body (req st)) /\
        res (snd (createNewUser st))
          = mkResponse (statusCode (res st)) (Some [("token", Str token)])
  | Throw _ =>
      res (snd (createNewUser st)) = res st /\
      (users (snd (createNewUser st)) = users st \/
       exists row, users (snd (createNewUser st)) = (users st ++ [row])%list)
  end.
Proof.
  rewrite createNewUser_run.
  destruct (prisma_user_create_cases (with_salt_drawn st)
              (body_username (body (req st)))
              (bcrypt_hash_with_salt (body_password (body (req st))) 10
                 (bcrypt_random_salt (salts_drawn st))))
    as [[-> _] | (row & -> & Hrow & _)]; cbn.
  - split; [reflexivity | now left].
  - destruct (jwt_sign _ _ _) as [token|e]; cbn.
    + exists row, token. rewrite Hrow. repeat split.
    + split; [reflexivity|]. right. now exists row.
Qed.

(** X9. When [prisma.user.create] rejects, [createNewUser] rejects with
    the same error: nothing is sent, [jwt.sign] is not called and the
    table is unchanged. *)
Theorem createNewUser_create_fails (st : State) (e : Thrown) :
  fst (prisma_user_create
         (body_username (body (req st)))
         (bcrypt_hash_with_salt (body_password (body (req st))) 10
            (bcrypt_random_salt (salts_drawn st)))
         (snd (hashPassword (body_password (body (req st))) st)))
  = Throw e ->
  fst (createNewUser st) = Throw e /\
  res (snd (createNewUser st)) = res st /\
  users (snd (createNewUser st)) = users st /\
  emitted createNewUser st = [].
Proof.
  rewrite hashPassword_returns. cbn [snd]. unfold emitted.
  rewrite createNewUser_run.
  destruct (prisma_user_create_cases (with_salt_drawn st)
              (body_username (body (req st)))
              (bcrypt_hash_with_salt (body_password (body (req st))) 10
                 (bcrypt_random_salt (salts_drawn st))))
    as [[-> _] | (row & -> & _)]; cbn; [|discriminate].
  intros [= <-]. repeat split. apply skipn_all.
Qed.

(** X10. When the row is created but [jwt.sign] throws (as it does without
    a secret), [createNewUser] throws that error after the row has been
    stored: the account exists, and nothing is sent. *)
Theorem createNewUser_sign_fails (st : State) (row : User) (e : Thrown) :
  fst (prisma_user_create
         (body_username (body (req st)))
         (bcrypt_hash_with_salt (body_password (body (req st))) 10
            (bcrypt_random_salt (salts_drawn st)))
         (snd (hashPassword (body_password (body (req st))) st)))
  = Normal row ->
  jwt_sign (token_payload row) (JWT_SECRET st) (now st) = Throw e ->
  fst (createNewUser st) = Throw e /\
  users (snd (createNewUser st)) = (users st ++ [row])%list /\
  res (snd (createNewUser st)) = res st.
Proof.
  rewrite hashPassword_returns. cbn [snd].
  rewrite createNewUser_run.
  destruct (prisma_user_create_cases (with_salt_drawn st)
              (body_username (body (req st)))
              (bcrypt_hash_with_salt (body_password (body (req st))) 10
                 (bcrypt_random_salt (salts_drawn st))))
    as [[-> _] | (r & -> & _)]; cbn; [discriminate|].
  intros [= ->] Hsign. rewrite Hsign. cbn. repeat split.
Qed.

(** X13. [createNewUser] keeps the keys of the table: if no two rows
    share a [username] or an [id] before, none do after, however the
    handler ends. *)
Theorem createNewUser_keeps_unique (st : State) :
  unique_users (users st) ->
  unique_users (users (snd (createNewUser st))).
Proof.
  intros [Hn Hi]. rewrite createNewUser_run.
  destruct (prisma_user_create_cases (with_salt_drawn st)
              (body_username (body (req st)))
              (bcrypt_hash_with_salt (body_password (body (req st))) 10
                 (bcrypt_random_salt (salts_drawn st))))
    as [[-> _] | (row & -> & Hrow & Hfree)]; cbn.
  - now split.
  - assert (U : unique_users (users st ++ [row])).
    { split; rewrite map_app; cbn [map];
        (apply NoDup_app; [assumption | repeat constructor; intros [] |]);
        intros x Hx [<-|[]]; apply in_map_iff in Hx as (u & Hu & Hin);
        destruct (Hfree u Hin) as [F1 F2]; cbn [with_salt_drawn users] in *;
        rewrite Hrow in *; cbn [username id] in *; congruence. }
    destruct (jwt_sign _ _ _); exact U.
Qed.

End HandlerOutcomes.

(* ================================================================== *)
(** * Sign-up followed by another request *)

Section AfterSignup.

Context {JWT : Jsonwebtoken} {BCRYPT : Bcryptjs} {PRISMA : PrismaClient}.
Hypothesis jwt_laws : JwtLaws JWT.
Hypothesis bcrypt_laws : BcryptLaws BCRYPT.

(** What a sign-up that returned has done to the table. *)
Lemma createNewUser_normal (st : State) :
  fst (createNewUser st) = Normal tt ->
  exists row,
    users (snd (createNewUser st)) = (users st ++ [row])%list /\
    username row = body_username (body (req st)) /\
    password row
    = bcrypt_hash_with_salt (body_password (body (req st))) 10
        (bcrypt_random_salt (salts_drawn st)) /\
    forall u, In u (users st) -> username u <> username row.
Proof.
  rewrite createNewUser_run.
  destruct (prisma_user_create_cases (with_salt_drawn st)
              (body_username (body (req st)))
              (bcrypt_hash_with_salt (body_password (body (req st))) 10
                 (bcrypt_random_salt (salts_drawn st))))
    as [[-> _] | (row & -> & Hrow & Hfree)]; cbn; [discriminate|].
  destruct (jwt_sign _ _ _); cbn; [|discriminate].
  intros _. exists row. subst row. cbn [username password].
  split; [reflexivity|]. split; [reflexivity|]. split; [reflexivity|].
  intros u Hin. apply (Hfree u Hin).
Qed.

(** X11. After a sign-up that returned, a sign-in with the same username
    and password on the table it left (secret configured) finds the new
    row, gets [true] from [compare] on the stored hash, and sends a token
    signed for that row. *)
Theorem signup_then_signin (st st' : State) (key : string) :
  fst (createNewUser st) = Normal tt ->
  users st' = users (snd (createNewUser st)) ->
  body (req st') = body (req st) ->
  JWT_SECRET st' = Some key -> key <> "" ->
  exists row token,
    users st' = (users st ++ [row])%list /\
    jwt_sign (token_payload row) (Some key) (now st') = Normal token /\
    fst (signin st') = Normal tt /\
    res (snd (signin st'))
      = mkResponse (statusCode (res st')) (Some [("token", Str token)]).
Proof.
  intros Hup Husers Hbody Hs Hk.
  destruct (createNewUser_normal st Hup) as (row & Hrows & Hname & Hpw & Hfree).
  destruct (sign_returns JWT jwt_laws (token_payload row) key (now st')
              (token_payload_plain row) Hk) as [token Hsign].
  exists row, token. rewrite Husers, Hrows.
  split; [reflexivity|]. split; [exact Hsign|].
  run. rewrite Husers, Hrows, Hbody.
  rewrite find_app_none.
  - cbn [find]. rewrite <- Hname, String.eqb_refl. cbn.
    rewrite Hpw, (compare_hashed BCRYPT bcrypt_laws). cbn.
    rewrite Hs, Hsign. cbn. split; reflexivity.
  - intros u Hin. apply String.eqb_neq. rewrite <- Hname. now apply Hfree.
Qed.

(** X12. After a sign-up that returned, a second sign-up with the same
    username on the table it left is rejected by [prisma.user.create]:
    the handler throws, sends nothing, signs no token and leaves the
    table as it was. *)
Theorem signup_twice_conflicts (st st' : State) :
  fst (createNewUser st) = Normal tt ->
  users st' = users (snd (createNewUser st)) ->
  body_username (body (req st')) = body_username (body (req st)) ->
  fst (createNewUser st') = Throw (PrismaClientKnownRequestError "P2002") /\
  users (snd (createNewUser st')) = users st' /\
  res (snd (createNewUser st')) = res st' /\
  emitted createNewUser st' = [].
Proof.
  intros Hup Husers Hname'.
  destruct (createNewUser_normal st Hup) as (row & Hrows & Hname & _ & _).
  unfold emitted. rewrite (createNewUser_run st').
  destruct (prisma_user_create_cases (with_salt_drawn st')
              (body_username (body (req st')))
              (bcrypt_hash_with_salt (body_password (body (req st'))) 10
                 (bcrypt_random_salt (salts_drawn st'))))
    as [[-> _] | (r & _ & _ & Hfree)]; cbn.
  - repeat split. apply skipn_all.
  - exfalso. cbn [with_salt_drawn users] in Hfree.
    destruct (Hfree row) as [F _].
    + rewrite Husers, Hrows. apply in_or_app. right. now left.
    + apply F. congruence.
Qed.

End AfterSignup.

(* ================================================================== *)
(** * Two accounts with one password *)

Section SamePassword.

Context {JWT : Jsonwebtoken} {BCRYPT : Bcryptjs} {PRISMA : PrismaClient}.
Hypothesis bcrypt_laws : BcryptLaws BCRYPT.
Hypothesis fresh : fresh_salts BCRYPT.

(** [createNewUser] hashes before anything else: it always makes exactly
    one draw from the salt generator, however it ends. *)
Lemma createNewUser_draws (st : State) :
  salts_drawn (snd (createNewUser st)) = S (salts_drawn st).
Proof.
  rewrite createNewUser_run.
  destruct (prisma_user_create_cases (with_salt_drawn st)
              (body_username (body (req st)))
              (bcrypt_hash_with_salt (body_password (body (req st))) 10
                 (bcrypt_random_salt (salts_drawn st))))
    as [[-> _] | (row & -> & _)]; cbn; [reflexivity|].
  destruct (jwt_sign _ _ _); reflexivity.
Qed.

Lemma createNewUser_stored (st : State) :
  fst (createNewUser st) = Normal tt ->
  exists row,
    users (snd (createNewUser st)) = (users st ++ [row])%list /\
    password row
    = bcrypt_hash_with_salt (body_password (body (req st))) 10
        (bcrypt_random_salt (salts_drawn st)).
Proof.
  rewrite createNewUser_run.
  destruct (prisma_user_create_cases (with_salt_drawn st)
              (body_username (body (req st)))
              (bcrypt_hash_with_salt (body_password (body (req st))) 10
                 (bcrypt_random_salt (salts_drawn st))))
    as [[-> _] | (row & -> & Hrow & _)]; cbn; [discriminate|].
  destruct (jwt_sign _ _ _); cbn; [|discriminate].
  intros _. exists row. subst row. split; reflexivity.
Qed.

(** X14. Two sign-ups, the second on the state the first left, that
    submit the same password store different password hashes: the table
    does not show that two accounts share a password. *)
Theorem same_password_different_hashes (st st' : State) :
  fst (createNewUser st) = Normal tt ->
  users st' = users (snd (createNewUser st)) ->
  salts_drawn st' = salts_drawn (snd (createNewUser st)) ->
  body_password (body (req st')) = body_password (body (req st)) ->
  fst (createNewUser st') = Normal tt ->
  exists row row',
    users (snd (createNewUser st')) = (users st ++ [row; row'])%list /\
    password row <> password row'.
Proof.
  intros Hup Husers Hdraws Hpw Hup'.
  destruct (createNewUser_stored st Hup) as (row & Hrows & Hrow).
  destruct (createNewUser_stored st' Hup') as (row' & Hrows' & Hrow').
  exists row, row'. split.
  - rewrite Hrows', Husers, Hrows, <- app_assoc. reflexivity.
  - rewrite Hrow, Hrow', Hpw, Hdraws, createNewUser_draws. intros E.
    apply (hash_carries_salt BCRYPT bcrypt_laws) in E.
    apply fresh in E. lia.
Qed.

End SamePassword.

(* ================================================================== *)
(** * The further properties on the worked session *)

Module SessionEdges.
Import Ideal.

#[local] Existing Instance jsonwebtoken.
#[local] Existing Instance bcryptjs.
#[local] Existing Instance prisma.

Lemma protect_empty_header_value_witness :
  authorization (req (bearing (Some ""))) = Some "" /\
  res (snd (protect (bearing (Some ""))))
    = mkResponse 401 (Some (message "Unauthorized")) /\
  emitted protect (bearing (Some "")) = [].
Proof.
  split; [reflexivity|].
  destruct (protect_empty_header_value (bearing (Some "")) eq_refl)
    as (_ & Hres & Hev & _).
  now split.
Defined.

Lemma protect_second_segment_only_witness :
  has_space john_token = false /\
  protect (bearing (Some ("Basic" ++ String " " (john_token ++ " trailing"))))
  = verify_and_continue john_token
      (bearing (Some ("Basic" ++ String " " (john_token ++ " trailing")))).
Proof.
  split; [reflexivity|].
  apply (protect_second_segment_only
           (bearing (Some ("Basic" ++ String " " (john_token ++ " trailing"))))
           "Basic" john_token " trailing" eq_refl eq_refl).
  - discriminate.
  - right. now exists "trailing".
  - reflexivity.
Defined.

Lemma protect_double_space_witness :
  has_space "Bearer" = false /\
  res (snd (protect (bearing (Some ("Bearer" ++ String " " (String " " john_token))))))
    = mkResponse 401 (Some (message "No token provided")) /\
  emitted protect (bearing (Some ("Bearer" ++ String " " (String " " john_token))))
    = [].
Proof.
  split; [reflexivity|].
  destruct (protect_double_space
              (bearing (Some ("Bearer" ++ String " " (String " " john_token))))
              "Bearer" john_token eq_refl eq_refl) as (_ & Hres & Hev).
  now split.
Defined.

Lemma issued_token_passes_protect_witness :
  fst (createJWT john after_signup) = Normal john_token /\
  emitted protect (bearing (Some ("Bearer " ++ john_token)))
    = [JwtVerifyCalled john_token; NextCalled] /\
  exists decoded,
    user (req (snd (protect (bearing (Some ("Bearer " ++ john_token))))))
      = Some decoded /\
    get "id" decoded = Some (Str "u0") /\
    get "username" decoded = Some (Str "johnDoe").
Proof.
  split; [reflexivity|].
  destruct (issued_token_passes_protect IdealLaws.jwt_laws after_signup
              (bearing (Some ("Bearer " ++ john_token))) john "shh" john_token
              eq_refl eq_refl eq_refl eq_refl) as (_ & _ & Hev & Hdec).
  split; [exact Hev | exact Hdec].
Defined.

Lemma token_determines_account_witness :
  fst (createJWT john after_signup) = Normal john_token /\
  fst (createJWT john_rehashed after_signup) = Normal john_token /\
  id john = id john_rehashed /\ username john = username john_rehashed.
Proof.
  split; [reflexivity|]. split; [reflexivity|].
  apply (token_determines_account IdealLaws.jwt_laws after_signup after_signup
           john john_rehashed "shh" john_token eq_refl eq_refl eq_refl eq_refl).
Defined.

Lemma createNewUser_create_fails_witness :
  users (incoming (request None "johnDoe" "another") after_signup) = [john] /\
  fst (createNewUser (incoming (request None "johnDoe" "another") after_signup))
    = Throw (PrismaClientKnownRequestError "P2002") /\
  res (snd (createNewUser (incoming (request None "johnDoe" "another")
                             after_signup)))
    = fresh_response.
Proof.
  split; [reflexivity|].
  destruct (createNewUser_create_fails
              (incoming (request None "johnDoe" "another") after_signup)
              (PrismaClientKnownRequestError "P2002") eq_refl)
    as (Hthrow & Hres & _).
  split; [exact Hthrow | exact Hres].
Defined.

Lemma createNewUser_sign_fails_witness :
  JWT_SECRET (server None (request None "johnDoe" "mysecretpassword")) = None /\
  fst (createNewUser (server None (request None "johnDoe" "mysecretpassword")))
    = Throw (Error "secretOrPrivateKey must have a value") /\
  users (snd (createNewUser (server None (request None "johnDoe"
                                                  "mysecretpassword"))))
    = [john] /\
  res (snd (createNewUser (server None (request None "johnDoe"
                                                "mysecretpassword"))))
    = fresh_response.
Proof.
  split; [reflexivity|].
  exact (createNewUser_sign_fails
           (server None (request None "johnDoe" "mysecretpassword")) john
           (Error "secretOrPrivateKey must have a value") eq_refl eq_refl).
Defined.

Lemma signup_then_signin_witness :
  fst (createNewUser signup) = Normal tt /\
  exists row token,
    users (incoming (request None "johnDoe" "mysecretpassword") after_signup)
      = (users signup ++ [row])%list /\
    jwt_sign (token_payload row) (Some "shh") 1700000000 = Normal token /\
    res (snd (signin (incoming (request None "johnDoe" "mysecretpassword")
                        after_signup)))
      = mkResponse 200 (Some [("token", Str token)]).
Proof.
  split; [reflexivity|].
  destruct (@signup_then_signin jsonwebtoken bcryptjs prisma
              IdealLaws.jwt_laws IdealLaws.bcrypt_laws signup
              (incoming (request None "johnDoe" "mysecretpassword") after_signup)
              "shh" eq_refl eq_refl eq_refl eq_refl ltac:(discriminate))
    as (row & token & Hrows & Hsign & _ & Hres).
  exists row, token. repeat split; assumption.
Defined.

Lemma signup_twice_conflicts_witness :
  fst (createNewUser signup) = Normal tt /\
  fst (createNewUser (incoming (request None "johnDoe" "another") after_signup))
    = Throw (PrismaClientKnownRequestError "P2002") /\
  users (snd (createNewUser (incoming (request None "johnDoe" "another")
                               after_signup)))
    = [john].
Proof.
  split; [reflexivity|].
  destruct (@signup_twice_conflicts jsonwebtoken bcryptjs prisma signup
              (incoming (request None "johnDoe" "another") after_signup)
              eq_refl eq_refl eq_refl)
    as (Hthrow & Husers & _).
  split; [exact Hthrow | exact Husers].
Defined.

Lemma createNewUser_keeps_unique_witness :
  unique_users (users (incoming (request None "jane" "pw") after_signup)) /\
  unique_users
    (users (snd (createNewUser (incoming (request None "jane" "pw")
                                  after_signup)))).
Proof.
  assert (U : unique_users
                (users (incoming (request None "jane" "pw") after_signup))).
  { split; repeat constructor; intros []. }
  split; [exact U|].
  exact (createNewUser_keeps_unique
           (incoming (request None "jane" "pw") after_signup) U).
Defined.



Lemma same_password_different_hashes_witness :
  fst (createNewUser signup) = Normal tt /\
  body_password (body (req (incoming (request None "jane" "mysecretpassword")
                              after_signup)))
    = body_password (body (req signup)) /\
  exists row row',
    users (snd (createNewUser (incoming (request None "jane" "mysecretpassword")
                                 after_signup)))
      = (users signup ++ [row; row'])%list /\
    password row <> password row'.
Proof.
  split; [reflexivity|]. split; [reflexivity|].
  exact (@same_password_different_hashes jsonwebtoken bcryptjs prisma
           IdealLaws.bcrypt_laws IdealLaws.ideal_fresh_salts signup
           (incoming (request None "jane" "mysecretpassword") after_signup)
           eq_refl eq_refl eq_refl eq_refl eq_refl).
Defined.

End SessionEdges.
